(** * timer0.c: the 1 ms tick counter and the seven-segment multiplexer

    A shallow embedding of [src/GccApplication5/timer0.c].  The driver's
    two file-scope variables and the memory-mapped registers it touches
    are the fields of one record; every C function is a function on that
    record.  Integers are [Z] with the wrap-around of their C type written
    out; an array access outside [seven_seg] is undefined behaviour and is
    modelled as [None]. *)

From Stdlib Require Import ZArith List Lia Bool.
Import ListNotations.
Open Scope Z_scope.

(** ** Fixed-width unsigned integers *)

Definition to_uint8 (x : Z) : Z := x mod 2 ^ 8.
Definition to_uint32 (x : Z) : Z := x mod 2 ^ 32.

(** ** Bit names of <avr/io.h> (ATmega324A) used by the driver *)

Module Avr.
Definition WGM01 : Z := 1.
Definition CS00 : Z := 0.
Definition CS01 : Z := 1.
Definition OCIE0A : Z := 1.
Definition OCF0A : Z := 1.
Definition DDRC0 : Z := 0.
Definition SREG_I : Z := 7.

(** System clock the driver is tuned for (comment above [init_timer0]). *)
Definition F_CPU : Z := 8000000.

(** Clock-select field CS02:0 of TCCR0B: the divider the timer counts
    the system clock with (0 stands for "timer stopped or externally
    clocked"). *)
Definition clock_select_divider (tccr0b : Z) : Z :=
  match Z.land tccr0b 7 with
  | 1 => 1
  | 2 => 8
  | 3 => 64
  | 4 => 256
  | 5 => 1024
  | _ => 0
  end.
End Avr.

(** ** The state the driver reads and writes

    A register holds what the program last stored in it: the counting of
    TCNT0 and the setting of flags by the timer hardware are outside this
    file, as is the body of [get_snake_length]. *)

Record state : Type := mkState {
  clock_ticks : Z;   (* static volatile uint32_t clock_ticks *)
  digit : Z;         (* static volatile uint8_t digit *)
  TCNT0 : Z;
  OCR0A : Z;
  TCCR0A : Z;
  TCCR0B : Z;
  TIMSK0 : Z;
  TIFR0 : Z;
  DDRA : Z;
  DDRC : Z;
  PORTA : Z;
  PORTC : Z;
  SREG : Z
}.

Definition set_clock_ticks (v : Z) (s : state) : state :=
  mkState v (digit s) (TCNT0 s) (OCR0A s) (TCCR0A s) (TCCR0B s) (TIMSK0 s)
          (TIFR0 s) (DDRA s) (DDRC s) (PORTA s) (PORTC s) (SREG s).
Definition set_digit (v : Z) (s : state) : state :=
  mkState (clock_ticks s) v (TCNT0 s) (OCR0A s) (TCCR0A s) (TCCR0B s) (TIMSK0 s)
          (TIFR0 s) (DDRA s) (DDRC s) (PORTA s) (PORTC s) (SREG s).
Definition set_TCNT0 (v : Z) (s : state) : state :=
  mkState (clock_ticks s) (digit s) v (OCR0A s) (TCCR0A s) (TCCR0B s) (TIMSK0 s)
          (TIFR0 s) (DDRA s) (DDRC s) (PORTA s) (PORTC s) (SREG s).
Definition set_OCR0A (v : Z) (s : state) : state :=
  mkState (clock_ticks s) (digit s) (TCNT0 s) v (TCCR0A s) (TCCR0B s) (TIMSK0 s)
          (TIFR0 s) (DDRA s) (DDRC s) (PORTA s) (PORTC s) (SREG s).
Definition set_TCCR0A (v : Z) (s : state) : state :=
  mkState (clock_ticks s) (digit s) (TCNT0 s) (OCR0A s) v (TCCR0B s) (TIMSK0 s)
          (TIFR0 s) (DDRA s) (DDRC s) (PORTA s) (PORTC s) (SREG s).
Definition set_TCCR0B (v : Z) (s : state) : state :=
  mkState (clock_ticks s) (digit s) (TCNT0 s) (OCR0A s) (TCCR0A s) v (TIMSK0 s)
          (TIFR0 s) (DDRA s) (DDRC s) (PORTA s) (PORTC s) (SREG s).
Definition set_TIMSK0 (v : Z) (s : state) : state :=
  mkState (clock_ticks s) (digit s) (TCNT0 s) (OCR0A s) (TCCR0A s) (TCCR0B s) v
          (TIFR0 s) (DDRA s) (DDRC s) (PORTA s) (PORTC s) (SREG s).
Definition set_TIFR0 (v : Z) (s : state) : state :=
  mkState (clock_ticks s) (digit s) (TCNT0 s) (OCR0A s) (TCCR0A s) (TCCR0B s)
          (TIMSK0 s) v (DDRA s) (DDRC s) (PORTA s) (PORTC s) (SREG s).
Definition set_DDRA (v : Z) (s : state) : state :=
  mkState (clock_ticks s) (digit s) (TCNT0 s) (OCR0A s) (TCCR0A s) (TCCR0B s)
          (TIMSK0 s) (TIFR0 s) v (DDRC s) (PORTA s) (PORTC s) (SREG s).
Definition set_DDRC (v : Z) (s : state) : state :=
  mkState (clock_ticks s) (digit s) (TCNT0 s) (OCR0A s) (TCCR0A s) (TCCR0B s)
          (TIMSK0 s) (TIFR0 s) (DDRA s) v (PORTA s) (PORTC s) (SREG s).
Definition set_PORTA (v : Z) (s : state) : state :=
  mkState (clock_ticks s) (digit s) (TCNT0 s) (OCR0A s) (TCCR0A s) (TCCR0B s)
          (TIMSK0 s) (TIFR0 s) (DDRA s) (DDRC s) v (PORTC s) (SREG s).
Definition set_SREG (v : Z) (s : state) : state :=
  mkState (clock_ticks s) (digit s) (TCNT0 s) (OCR0A s) (TCCR0A s) (TCCR0B s)
          (TIMSK0 s) (TIFR0 s) (DDRA s) (DDRC s) (PORTA s) (PORTC s) v.

(** The state of the variables and registers at reset, before any code of
    the driver has run (every register of the record resets to zero). *)
Definition power_on : state := mkState 0 0 0 0 0 0 0 0 0 0 0 0 0.

(** ** A small error monad: [None] is undefined behaviour *)

Definition bind {A B : Type} (m : option A) (k : A -> option B) : option B :=
  match m with
  | Some a => k a
  | None => None
  end.

Notation "x <- m ;; k" := (bind m (fun x => k))
  (at level 61, m at next level, right associativity).

(** ** The pattern table, line 22 *)

Definition seven_seg : list Z := [63; 6; 91; 79; 102; 109; 125; 7; 127; 111].

(** [seven_seg[i]]: defined for the ten entries of the array only. *)
Definition seven_seg_at (i : Z) : option Z :=
  if i <? 0 then None else nth_error seven_seg (Z.to_nat i).

(** ** init_timer0, lines 34-72 *)

Definition init_timer0 (s : state) : state :=
  let s := set_clock_ticks 0 s in
  let s := set_TCNT0 0 s in
  let s := set_OCR0A 124 s in
  let s := set_TCCR0A (Z.shiftl 1 Avr.WGM01) s in
  let s := set_TCCR0B (Z.lor (Z.shiftl 1 Avr.CS01) (Z.shiftl 1 Avr.CS00)) s in
  let s := set_TIMSK0 (to_uint8 (Z.lor (TIMSK0 s) (Z.shiftl 1 Avr.OCIE0A))) s in
  let s := set_TIFR0 (to_uint8 (Z.land (TIFR0 s) (Z.shiftl 1 Avr.OCF0A))) s in
  let s := set_DDRA 255 s in
  let s := set_DDRC (Z.shiftl 1 Avr.DDRC0) s in
  let s := set_digit 0 s in
  s.

(** ** get_clock_ticks, lines 74-89 *)

(** [bit_is_set(sfr, bit)] of avr-libc: [sfr & (1 << bit)]. *)
Definition bit_is_set (sfr bit : Z) : Z := Z.land sfr (Z.shiftl 1 bit).

(** [cli()] and [sei()] clear and set the global interrupt flag. *)
Definition cli (s : state) : state :=
  set_SREG (Z.clearbit (SREG s) Avr.SREG_I) s.
Definition sei (s : state) : state :=
  set_SREG (Z.setbit (SREG s) Avr.SREG_I) s.

(** Whether the hardware delivers interrupts in state [s]. *)
Definition interrupts_enabled (s : state) : bool :=
  Z.testbit (SREG s) Avr.SREG_I.

Definition get_clock_ticks (s : state) : Z * state :=
  let interrupts_were_on := to_uint8 (bit_is_set (SREG s) Avr.SREG_I) in
  let s := cli s in
  let return_value := clock_ticks s in
  let s := if interrupts_were_on =? 0 then s else sei s in
  (return_value, s).

(** ** display_length, lines 94-110 *)

(** The two index expressions, [snakeLength % 10] and [snakeLength / 10]
    (C's remainder and truncating division). *)
Definition right_index (snakeLength : Z) : Z := Z.rem snakeLength 10.
Definition left_index (snakeLength : Z) : Z := Z.quot snakeLength 10.

(** The body, run on the two parameters.  [digit] here is the parameter:
    it shadows the file-scope variable of the same name, so the two
    assignments to it change the local copy, which is returned next to
    the state to make that visible. *)
Definition display_length_body (snakeLength digit : Z) (s : state)
  : option (Z * state) :=
  if digit =? 0 then
    p <- seven_seg_at (right_index snakeLength) ;;
    let s := set_PORTA p s in
    let digit := to_uint8 (digit + 1) in
    Some (digit, s)
  else
    p <- seven_seg_at (left_index snakeLength) ;;
    let s := set_PORTA p s in
    let digit := to_uint8 (1 - digit) in
    Some (digit, s).

(** The call: both arguments are converted to [uint8_t], and the local
    copy of [digit] dies with the frame. *)
Definition display_length (snakeLength digit : Z) (s : state) : option state :=
  r <- display_length_body (to_uint8 snakeLength) (to_uint8 digit) s ;;
  Some (snd r).

(** ** ISR(TIMER0_COMPA_vect), lines 115-120

    [get_snake_length] is the value the external [get_snake_length()]
    returns at this firing. *)
Definition ISR_TIMER0_COMPA (get_snake_length : Z) (s : state) : option state :=
  let s := set_clock_ticks (to_uint32 (clock_ticks s + 1)) s in
  display_length get_snake_length (digit s) s.

(** A run of the handler, one firing per element of [lens] (the snake
    length seen at that firing), with nothing in between. *)
Fixpoint fire (lens : list Z) (s : state) : option state :=
  match lens with
  | [] => Some s
  | len :: rest => s' <- ISR_TIMER0_COMPA len s ;; fire rest s'
  end.

(** ** The pattern table as the specification words it *)

(** The canonical seven-segment encoding of a decimal digit (segment a is
    bit 0, segment g is bit 6), as the literal table of the
    specification. *)
Definition canonical_pattern (v : Z) : Z :=
  match v with
  | 0 => 63
  | 1 => 6
  | 2 => 91
  | 3 => 79
  | 4 => 102
  | 5 => 109
  | 6 => 125
  | 7 => 7
  | 8 => 127
  | 9 => 111
  | _ => 0
  end.

(** ** The compare threshold as the specification words it *)

(** threshold = (clock_hz / divider / 1000) - 1 *)
Definition compare_threshold (clock_hz divider : Z) : Z :=
  clock_hz / divider / 1000 - 1.

(** ** Sequences of calls into the driver *)

Inductive call : Type :=
| Call_init_timer0
| Call_get_clock_ticks
| Call_display_length (snakeLength digit : Z)
| Call_ISR (get_snake_length : Z).

Definition run_call (c : call) (s : state) : option state :=
  match c with
  | Call_init_timer0 => Some (init_timer0 s)
  | Call_get_clock_ticks => Some (snd (get_clock_ticks s))
  | Call_display_length v d => display_length v d s
  | Call_ISR len => ISR_TIMER0_COMPA len s
  end.

Fixpoint run_calls (cs : list call) (s : state) : option state :=
  match cs with
  | [] => Some s
  | c :: rest => s' <- run_call c s ;; run_calls rest s'
  end.

(** ** get_clock_ticks statement by statement, with interrupts

    The four statements of [get_clock_ticks] as steps of a small machine
    whose frame holds the two locals.  Before each statement the timer may
    request an interrupt; the handler runs only when the global interrupt
    flag is set. *)

Module Preempt.

Inductive label : Type :=
| AtSave       (* line 82 *)
| AtCli        (* line 83 *)
| AtRead       (* line 84 *)
| AtRestore    (* lines 85-87 *)
| AtReturn.    (* line 88 *)

Record frame : Type := mkFrame {
  pc : label;
  interrupts_were_on : Z;
  return_value : Z
}.

Definition entry : frame := mkFrame AtSave 0 0.

Definition stmt (f : frame) (s : state) : frame * state :=
  match pc f with
  | AtSave =>
      (mkFrame AtCli (to_uint8 (bit_is_set (SREG s) Avr.SREG_I))
               (return_value f), s)
  | AtCli =>
      (mkFrame AtRead (interrupts_were_on f) (return_value f), cli s)
  | AtRead =>
      (mkFrame AtRestore (interrupts_were_on f) (clock_ticks s), s)
  | AtRestore =>
      (mkFrame AtReturn (interrupts_were_on f) (return_value f),
       if interrupts_were_on f =? 0 then s else sei s)
  | AtReturn => (f, s)
  end.

(** A compare-match request: [Some len] asks for the handler, with
    [get_snake_length()] returning [len]; it is served only with the
    interrupt flag set.  (On the chip a request that finds the flag clear
    stays pending and is served once the flag is set again; here it is up
    to the schedule to raise it again in a later slot.) *)
Definition deliver (irq : option Z) (s : state) : option state :=
  match irq with
  | Some len => if interrupts_enabled s then ISR_TIMER0_COMPA len s else Some s
  | None => Some s
  end.

(** One slot of the schedule before each statement. *)
Fixpoint run (sched : list (option Z)) (f : frame) (s : state)
  : option (frame * state) :=
  match sched with
  | [] => Some (f, s)
  | irq :: rest =>
      s1 <- deliver irq s ;;
      run rest (fst (stmt f s1)) (snd (stmt f s1))
  end.

End Preempt.

(** ** What [init_timer0] establishes *)

(** The settings of [init_timer0] that the rest of the driver relies on:
    compare value, mode and clock select, the compare interrupt enabled,
    the two direction registers, the selector at zero and the counter
    within its 32 bits. *)
Definition configured (s : state) : Prop :=
  OCR0A s = 124 /\
  TCCR0A s = Z.shiftl 1 Avr.WGM01 /\
  TCCR0B s = Z.lor (Z.shiftl 1 Avr.CS01) (Z.shiftl 1 Avr.CS00) /\
  Z.testbit (TIMSK0 s) Avr.OCIE0A = true /\
  DDRA s = 255 /\
  DDRC s = Z.shiftl 1 Avr.DDRC0 /\
  digit s = 0 /\
  0 <= clock_ticks s < 2 ^ 32.


(** * Basic facts *)

Section Integers.

Lemma to_uint8_range (x : Z) : 0 <= to_uint8 x < 256.
Proof. unfold to_uint8. change (2 ^ 8) with 256. apply Z.mod_pos_bound. lia. Qed.

Lemma to_uint8_small (x : Z) : 0 <= x < 256 -> to_uint8 x = x.
Proof. intros Hx. unfold to_uint8. change (2 ^ 8) with 256. now apply Z.mod_small. Qed.

Lemma to_uint8_idem (x : Z) : to_uint8 (to_uint8 x) = to_uint8 x.
Proof. apply to_uint8_small, to_uint8_range. Qed.

Lemma to_uint8_testbit (x n : Z) :
  Z.testbit (to_uint8 x) n = (n <? 8) && Z.testbit x n.
Proof.
  unfold to_uint8.
  destruct (Z.ltb_spec n 8) as [Hlt | Hge]; cbn [andb].
  - destruct (Z.ltb_spec n 0) as [Hneg | Hpos].
    + now rewrite !Z.testbit_neg_r.
    + apply Z.mod_pow2_bits_low. lia.
  - apply Z.mod_pow2_bits_high. lia.
Qed.

Lemma to_uint32_range (x : Z) : 0 <= to_uint32 x < 2 ^ 32.
Proof. unfold to_uint32. apply Z.mod_pos_bound. lia. Qed.

(** Remainder and truncating division agree with [mod] and [/] on the
    non-negative values a [uint8_t] holds. *)
Lemma right_index_mod (v : Z) : 0 <= v -> right_index v = v mod 10.
Proof. intros Hv. unfold right_index. apply Z.rem_mod_nonneg; lia. Qed.

Lemma left_index_div (v : Z) : 0 <= v -> left_index v = v / 10.
Proof. intros Hv. unfold left_index. apply Z.quot_div_nonneg; lia. Qed.

End Integers.

Section Table.

Lemma seven_seg_at_canonical (i : Z) :
  0 <= i <= 9 -> seven_seg_at i = Some (canonical_pattern i).
Proof.
  intros Hi.
  assert (Hc : i = 0 \/ i = 1 \/ i = 2 \/ i = 3 \/ i = 4 \/
               i = 5 \/ i = 6 \/ i = 7 \/ i = 8 \/ i = 9) by lia.
  repeat (destruct Hc as [-> | Hc]; [reflexivity | ]).
  subst i. reflexivity.
Qed.

Lemma seven_seg_at_outside (i : Z) : i < 0 \/ 9 < i -> seven_seg_at i = None.
Proof.
  intros Hi. unfold seven_seg_at.
  destruct (Z.ltb_spec i 0) as [Hneg | Hpos]; [reflexivity | ].
  apply nth_error_None. simpl length. lia.
Qed.

Lemma seven_seg_at_defined (i : Z) :
  (exists p, seven_seg_at i = Some p) <-> 0 <= i <= 9.
Proof.
  split.
  - intros [p Hp].
    destruct (Z_le_gt_dec 0 i) as [H0 | H0], (Z_le_gt_dec i 9) as [H9 | H9];
      try lia; rewrite seven_seg_at_outside in Hp by lia; discriminate.
  - intros Hi. eexists. now apply seven_seg_at_canonical.
Qed.

End Table.

(** * The digit multiplexer *)

Section DisplayLength.

(** Right-digit path: taken whenever the selector argument is zero; the
    index [snakeLength % 10] is always inside the table. *)
Lemma display_length_right (v d : Z) (s : state) :
  to_uint8 d = 0 ->
  display_length v d s
  = Some (set_PORTA (canonical_pattern (to_uint8 v mod 10)) s).
Proof.
  intros Hd. unfold display_length, display_length_body.
  rewrite Hd. cbn [Z.eqb].
  pose proof (to_uint8_range v) as Hv.
  rewrite right_index_mod by lia.
  rewrite seven_seg_at_canonical by (pose proof (Z.mod_pos_bound (to_uint8 v) 10 eq_refl); lia).
  reflexivity.
Qed.

(** Left-digit path on a value that fits two decimal digits. *)
Lemma display_length_left (v d : Z) (s : state) :
  to_uint8 d <> 0 -> to_uint8 v <= 99 ->
  display_length v d s
  = Some (set_PORTA (canonical_pattern (to_uint8 v / 10)) s).
Proof.
  intros Hd Hv99. unfold display_length, display_length_body.
  apply Z.eqb_neq in Hd. rewrite Hd.
  pose proof (to_uint8_range v) as Hv.
  rewrite left_index_div by lia.
  rewrite seven_seg_at_canonical
    by (split; [apply Z.div_pos; lia | apply Z.lt_succ_r, Z.div_lt_upper_bound; lia]).
  reflexivity.
Qed.

(** Left-digit path on a value above 99: [snakeLength / 10] is past the
    last entry of [seven_seg]. *)
Lemma display_length_left_outside (v d : Z) (s : state) :
  to_uint8 d <> 0 -> 99 < to_uint8 v -> display_length v d s = None.
Proof.
  intros Hd Hv99. unfold display_length, display_length_body.
  apply Z.eqb_neq in Hd. rewrite Hd.
  rewrite left_index_div by lia.
  rewrite seven_seg_at_outside; [reflexivity | ].
  right. apply Z.lt_le_trans with (m := 100 / 10); [reflexivity | ].
  apply Z.div_le_mono; lia.
Qed.

(** The only field a call changes is [PORTA]. *)
Lemma display_length_writes_PORTA_only (v d : Z) (s s' : state) :
  display_length v d s = Some s' -> s' = set_PORTA (PORTA s') s.
Proof.
  unfold display_length, display_length_body.
  destruct (to_uint8 d =? 0).
  - destruct (seven_seg_at (right_index (to_uint8 v))) as [p | ];
      cbn; [ | discriminate].
    intros [= <-]. reflexivity.
  - destruct (seven_seg_at (left_index (to_uint8 v))) as [p | ];
      cbn; [ | discriminate].
    intros [= <-]. reflexivity.
Qed.

End DisplayLength.

(** * The interrupt handler *)

Section Handler.

Lemma ISR_right (len : Z) (s : state) :
  digit s = 0 ->
  ISR_TIMER0_COMPA len s
  = Some (set_PORTA (canonical_pattern (to_uint8 len mod 10))
            (set_clock_ticks (to_uint32 (clock_ticks s + 1)) s)).
Proof.
  intros Hd. unfold ISR_TIMER0_COMPA.
  apply display_length_right. cbn [digit set_clock_ticks]. now rewrite Hd.
Qed.

Lemma to_uint32_succ (c n : Z) :
  to_uint32 (to_uint32 (c + 1) + n) = to_uint32 (c + (1 + n)).
Proof.
  unfold to_uint32. rewrite Zplus_mod_idemp_l. f_equal. lia.
Qed.

(** With the selector at zero every firing completes, takes the right
    path, leaves the selector at zero and adds one to the counter. *)
Lemma fire_selector_zero (lens : list Z) :
  forall s : state,
    digit s = 0 ->
    0 <= clock_ticks s < 2 ^ 32 ->
    exists s' : state,
      fire lens s = Some s' /\
      digit s' = 0 /\
      PORTC s' = PORTC s /\
      SREG s' = SREG s /\
      clock_ticks s' = to_uint32 (clock_ticks s + Z.of_nat (length lens)).
Proof.
  induction lens as [ | len rest IH]; intros s Hd Hc.
  - exists s. cbn [fire length Z.of_nat]. rewrite Z.add_0_r.
    unfold to_uint32. rewrite Z.mod_small by exact Hc. auto.
  - cbn [fire]. rewrite ISR_right by exact Hd. cbn [bind].
    destruct (IH (set_PORTA (canonical_pattern (to_uint8 len mod 10))
                    (set_clock_ticks (to_uint32 (clock_ticks s + 1)) s)))
      as (s' & Hrun & Hd' & Hc' & Hi' & Hticks);
      [exact Hd | apply to_uint32_range | ].
    exists s'. repeat split; try assumption.
    rewrite Hticks. cbn [clock_ticks set_PORTA set_clock_ticks].
    rewrite to_uint32_succ. f_equal.
    cbn [length]. lia.
Qed.

End Handler.

(** * The interrupt flag and the tick accessor *)

Section InterruptFlag.

Lemma state_eta (s : state) : set_SREG (SREG s) s = s.
Proof. destruct s. reflexivity. Qed.

Lemma set_SREG_twice (a b : Z) (s : state) :
  set_SREG a (set_SREG b s) = set_SREG a s.
Proof. reflexivity. Qed.

Lemma cli_masks (s : state) : interrupts_enabled (cli s) = false.
Proof.
  unfold interrupts_enabled, cli. cbn [SREG set_SREG].
  apply Z.clearbit_eq.
Qed.

Lemma sei_unmasks (s : state) : interrupts_enabled (sei s) = true.
Proof.
  unfold interrupts_enabled, sei. cbn [SREG set_SREG].
  apply Z.setbit_eq. unfold Avr.SREG_I. lia.
Qed.

Lemma cli_when_masked (s : state) : interrupts_enabled s = false -> cli s = s.
Proof.
  unfold interrupts_enabled, cli. intros Hoff.
  assert (Hsame : Z.clearbit (SREG s) Avr.SREG_I = SREG s).
  { apply Z.bits_inj'. intros n Hn.
    rewrite Z.clearbit_eqb.
    destruct (Z.eqb_spec Avr.SREG_I n) as [<- | Hne]; cbn [negb].
    - now rewrite Hoff.
    - apply andb_true_r. }
  rewrite Hsame. apply state_eta.
Qed.

Lemma sei_after_cli (s : state) : interrupts_enabled s = true -> sei (cli s) = s.
Proof.
  unfold interrupts_enabled, sei, cli. intros Hon.
  cbn [SREG set_SREG].
  assert (Hsame : Z.setbit (Z.clearbit (SREG s) Avr.SREG_I) Avr.SREG_I = SREG s).
  { apply Z.bits_inj'. intros n Hn.
    rewrite Z.setbit_eqb by (unfold Avr.SREG_I; lia). rewrite Z.clearbit_eqb.
    destruct (Z.eqb_spec Avr.SREG_I n) as [<- | Hne]; cbn [negb orb].
    - now rewrite Hon.
    - apply andb_true_r. }
  rewrite Hsame. etransitivity; [apply set_SREG_twice | apply state_eta].
Qed.

(** The saved flag, an [uint8_t], is zero exactly when the interrupt
    flag was clear: bit 7 survives the conversion to eight bits. *)
Lemma saved_flag_zero (s : state) :
  (to_uint8 (bit_is_set (SREG s) Avr.SREG_I) =? 0) = negb (interrupts_enabled s).
Proof.
  unfold interrupts_enabled, bit_is_set.
  destruct (Z.testbit (SREG s) Avr.SREG_I) eqn:Hbit; cbn [negb].
  - apply Z.eqb_neq. intros Hz.
    assert (Hb : Z.testbit (to_uint8 (Z.land (SREG s) (Z.shiftl 1 Avr.SREG_I)))
                   Avr.SREG_I = true).
    { rewrite to_uint8_testbit, Z.land_spec, Hbit. reflexivity. }
    rewrite Hz, Z.bits_0 in Hb. discriminate.
  - apply Z.eqb_eq. apply Z.bits_inj'. intros n Hn.
    rewrite to_uint8_testbit, Z.land_spec, Z.bits_0.
    change (Z.shiftl 1 Avr.SREG_I) with (2 ^ Avr.SREG_I).
    rewrite Z.pow2_bits_eqb by (unfold Avr.SREG_I; lia).
    destruct (Z.eqb_spec Avr.SREG_I n) as [<- | Hne].
    + rewrite Hbit. apply andb_false_r.
    + rewrite andb_false_r. apply andb_false_r.
Qed.

(** The accessor returns the counter and hands back the state it was
    given, interrupt flag included. *)
Lemma get_clock_ticks_eq (s : state) : get_clock_ticks s = (clock_ticks s, s).
Proof.
  unfold get_clock_ticks. rewrite saved_flag_zero.
  destruct (interrupts_enabled s) eqn:Hi; cbn [negb].
  - now rewrite sei_after_cli.
  - now rewrite cli_when_masked.
Qed.

End InterruptFlag.

(** * Configuration *)

Section Init.

Lemma uint8_lor_idem (x m : Z) :
  to_uint8 (Z.lor (to_uint8 (Z.lor x m)) m) = to_uint8 (Z.lor x m).
Proof.
  apply Z.bits_inj'. intros n Hn.
  rewrite !to_uint8_testbit, !Z.lor_spec, to_uint8_testbit, Z.lor_spec.
  destruct (n <? 8), (Z.testbit x n), (Z.testbit m n); reflexivity.
Qed.

Lemma uint8_land_idem (x m : Z) :
  to_uint8 (Z.land (to_uint8 (Z.land x m)) m) = to_uint8 (Z.land x m).
Proof.
  apply Z.bits_inj'. intros n Hn.
  rewrite !to_uint8_testbit, !Z.land_spec, to_uint8_testbit, Z.land_spec.
  destruct (n <? 8), (Z.testbit x n), (Z.testbit m n); reflexivity.
Qed.

Lemma init_timer0_idempotent (s : state) :
  init_timer0 (init_timer0 s) = init_timer0 s.
Proof.
  unfold init_timer0.
  cbn [set_clock_ticks set_digit set_TCNT0 set_OCR0A set_TCCR0A set_TCCR0B
       set_TIMSK0 set_TIFR0 set_DDRA set_DDRC
       clock_ticks digit TCNT0 OCR0A TCCR0A TCCR0B TIMSK0 TIFR0 DDRA DDRC
       PORTA PORTC SREG].
  now rewrite uint8_lor_idem, uint8_land_idem.
Qed.

End Init.

(** * Frame facts shared by the claims *)

Section Frames.

Lemma init_timer0_resets (s : state) :
  clock_ticks (init_timer0 s) = 0 /\ digit (init_timer0 s) = 0.
Proof. split; reflexivity. Qed.

Lemma display_length_frame (v d : Z) (s s' : state) :
  display_length v d s = Some s' ->
  digit s' = digit s /\ clock_ticks s' = clock_ticks s /\
  PORTC s' = PORTC s /\ SREG s' = SREG s.
Proof.
  intros Hcall. apply display_length_writes_PORTA_only in Hcall.
  rewrite Hcall. repeat split; reflexivity.
Qed.

Lemma ISR_frame (len : Z) (s s' : state) :
  ISR_TIMER0_COMPA len s = Some s' ->
  digit s' = digit s /\ PORTC s' = PORTC s /\ SREG s' = SREG s /\
  clock_ticks s' = to_uint32 (clock_ticks s + 1).
Proof.
  unfold ISR_TIMER0_COMPA. intros Hcall.
  apply display_length_frame in Hcall.
  cbn [digit clock_ticks PORTC SREG set_clock_ticks] in Hcall.
  tauto.
Qed.

Lemma run_call_frame (c : call) (s s' : state) :
  run_call c s = Some s' -> PORTC s' = PORTC s.
Proof.
  destruct c as [ | | v d | len]; cbn [run_call].
  - intros [= <-]. reflexivity.
  - rewrite get_clock_ticks_eq. intros [= <-]. reflexivity.
  - intros Hcall. now apply display_length_frame in Hcall.
  - intros Hcall. now apply ISR_frame in Hcall.
Qed.

Lemma run_calls_frame (cs : list call) :
  forall s s' : state, run_calls cs s = Some s' -> PORTC s' = PORTC s.
Proof.
  induction cs as [ | c rest IH]; intros s s'; cbn [run_calls].
  - intros [= <-]. reflexivity.
  - destruct (run_call c s) as [s1 | ] eqn:Hc; cbn [bind]; [ | discriminate].
    intros Hrest. apply IH in Hrest. apply run_call_frame in Hc. congruence.
Qed.

End Frames.

(** * get_clock_ticks under preemption *)

Module PreemptFacts.
Import Preempt.

(** Without requests the machine computes what [get_clock_ticks] does. *)
Lemma run_sequential (s : state) :
  run [None; None; None; None] entry s
  = Some (mkFrame AtReturn (to_uint8 (bit_is_set (SREG s) Avr.SREG_I))
            (fst (get_clock_ticks s)),
          snd (get_clock_ticks s)).
Proof. reflexivity. Qed.

(** With the flag set, a request in the first slot is served and the
    function returns the incremented counter; the same request in the slots
    after [cli()] is not served. *)
Example run_serves_request_before_cli :
  run [Some 5; None; None; None] entry (set_SREG 128 (init_timer0 power_on))
  = Some (mkFrame AtReturn 128 1,
          set_PORTA 109 (set_clock_ticks 1 (set_SREG 128 (init_timer0 power_on)))) /\
  run [None; None; Some 5; Some 5] entry (set_SREG 128 (init_timer0 power_on))
  = Some (mkFrame AtReturn 128 0, set_SREG 128 (init_timer0 power_on)).
Proof. split; vm_compute; reflexivity. Qed.

(** A request raised after [cli()] is not served before the function
    has read the counter and reached its restore statement. *)
Lemma masked_window (i0 i1 i2 i3 : option Z) (s : state) :
  run [i0; i1; i2; i3] entry s = run [i0; i1; None; None] entry s.
Proof.
  cbn [run].
  destruct (deliver i0 s) as [s1 | ]; cbn [bind]; [ | reflexivity].
  cbn [stmt entry pc fst snd].
  destruct (deliver i1 s1) as [s2 | ]; cbn [bind]; [ | reflexivity].
  cbn [stmt pc fst snd interrupts_were_on return_value].
  assert (Hmask : forall irq, deliver irq (cli s2) = Some (cli s2)).
  { intros [len | ]; cbn [deliver]; [ | reflexivity].
    now rewrite cli_masks. }
  rewrite !Hmask. cbn [bind]. rewrite !Hmask. reflexivity.
Qed.

Lemma deliver_SREG (irq : option Z) (s s' : state) :
  deliver irq s = Some s' -> SREG s' = SREG s.
Proof.
  destruct irq as [len | ]; cbn [deliver].
  - destruct (interrupts_enabled s).
    + intros Hisr. now apply ISR_frame in Hisr.
    + now intros [= <-].
  - now intros [= <-].
Qed.

(** Whatever the schedule, a run that completes returns the counter as
    it stood when [cli()] ran and the state of that moment, interrupt
    flag as on entry. *)
Lemma run_get_clock_ticks (i0 i1 i2 i3 : option Z) (s : state) :
  run [i0; i1; i2; i3] entry s
  = (s1 <- deliver i0 s ;;
     s2 <- deliver i1 s1 ;;
     Some (mkFrame AtReturn (to_uint8 (bit_is_set (SREG s) Avr.SREG_I))
             (clock_ticks s2), s2)).
Proof.
  rewrite masked_window. cbn [run].
  destruct (deliver i0 s) as [s1 | ] eqn:H0; cbn [bind]; [ | reflexivity].
  cbn [stmt entry pc fst snd].
  destruct (deliver i1 s1) as [s2 | ] eqn:H1; cbn [bind]; [ | reflexivity].
  cbn [stmt pc fst snd interrupts_were_on return_value deliver bind].
  apply deliver_SREG in H0. apply deliver_SREG in H1.
  rewrite H0.
  change (clock_ticks (cli s2)) with (clock_ticks s2).
  pose proof (get_clock_ticks_eq s2) as Hseq. unfold get_clock_ticks in Hseq.
  rewrite H1, H0 in Hseq. injection Hseq as Hstate.
  now rewrite Hstate.
Qed.

End PreemptFacts.

(** * The claims *)

(** C6.  For every digit value v in 0..9 the lookup [seven_seg[v]] is inside
    the ten-entry table and returns the canonical seven-segment encoding of
    v: 0 to 63, 1 to 6, 2 to 91, 3 to 79, 4 to 102, 5 to 109, 6 to 125,
    7 to 7, 8 to 127, 9 to 111. *)
Theorem seven_seg_maps_digits_to_canonical_patterns (v : Z) :
  0 <= v <= 9 ->
  seven_seg_at v = Some (canonical_pattern v) /\
  nth (Z.to_nat v) seven_seg 0 = canonical_pattern v /\
  length seven_seg = 10%nat.
Proof.
  intros Hv.
  assert (Hc : v = 0 \/ v = 1 \/ v = 2 \/ v = 3 \/ v = 4 \/
               v = 5 \/ v = 6 \/ v = 7 \/ v = 8 \/ v = 9) by lia.
  repeat (destruct Hc as [-> | Hc]; [repeat split | ]).
  subst v. repeat split.
Qed.

Lemma seven_seg_maps_digits_to_canonical_patterns_witness :
  seven_seg_at 7 = Some (canonical_pattern 7) /\
  nth (Z.to_nat 7) seven_seg 0 = canonical_pattern 7 /\
  length seven_seg = 10%nat.
Proof.
  apply (seven_seg_maps_digits_to_canonical_patterns 7). lia.
Defined.

(** C8.  [init_timer0] writes 124 to the compare register OCR0A and selects
    the clock divider 64; 124 is (clock_hz / divider / 1000) - 1 for the
    8 MHz clock, so a compare match comes every 64 * 125 clock cycles,
    which is one millisecond. *)
Theorem init_timer0_compare_threshold (s : state) :
  OCR0A (init_timer0 s) = 124 /\
  Avr.clock_select_divider (TCCR0B (init_timer0 s)) = 64 /\
  OCR0A (init_timer0 s)
  = compare_threshold Avr.F_CPU (Avr.clock_select_divider (TCCR0B (init_timer0 s))) /\
  Avr.clock_select_divider (TCCR0B (init_timer0 s)) * (OCR0A (init_timer0 s) + 1) * 1000
  = Avr.F_CPU.
Proof. repeat split. Qed.

(** C7.  Calling [init_timer0] twice in a row leaves the tick counter at 0
    and the digit selector at 0 (RIGHT); the second call changes nothing
    the first one set. *)
Theorem init_timer0_twice (s : state) :
  clock_ticks (init_timer0 (init_timer0 s)) = 0 /\
  digit (init_timer0 (init_timer0 s)) = 0 /\
  init_timer0 (init_timer0 s) = init_timer0 s.
Proof.
  split; [reflexivity | split; [reflexivity | ]].
  apply init_timer0_idempotent.
Qed.

(** C5.  [get_clock_ticks] reads the counter with the global interrupt flag
    clear, and returns with SREG exactly as the caller had it: interrupts
    stay disabled if they were disabled on entry and are enabled again if
    they were enabled.  Run statement by statement against any schedule of
    interrupt requests, a request raised between [cli()] and the restore
    statement is not served, and the function returns the counter and the
    state of the moment [cli()] ran. *)
Theorem get_clock_ticks_restores_interrupt_state (s : state) :
  interrupts_enabled (cli s) = false /\
  fst (get_clock_ticks s) = clock_ticks (cli s) /\
  snd (get_clock_ticks s) = s /\
  interrupts_enabled (snd (get_clock_ticks s)) = interrupts_enabled s /\
  (forall i0 i1 i2 i3 : option Z,
      Preempt.run [i0; i1; i2; i3] Preempt.entry s
      = Preempt.run [i0; i1; None; None] Preempt.entry s) /\
  (forall i0 i1 i2 i3 : option Z,
      Preempt.run [i0; i1; i2; i3] Preempt.entry s
      = (s1 <- Preempt.deliver i0 s ;;
         s2 <- Preempt.deliver i1 s1 ;;
         Some (Preempt.mkFrame Preempt.AtReturn
                 (to_uint8 (bit_is_set (SREG s) Avr.SREG_I)) (clock_ticks s2),
               s2))).
Proof.
  split; [apply cli_masks | ].
  split; [reflexivity | ].
  rewrite get_clock_ticks_eq. cbn [snd].
  split; [reflexivity | split; [reflexivity | ]].
  split; intros i0 i1 i2 i3.
  - apply PreemptFacts.masked_window.
  - apply PreemptFacts.run_get_clock_ticks.
Qed.

(** C3.  From the initialized state, after any N firings of the handler
    (whatever snake lengths they see) the handler has completed every
    time and [get_clock_ticks] returns N mod 2^32; one more firing adds
    exactly one to the counter, modulo 2^32. *)
Theorem get_clock_ticks_counts_firings (s0 : state) (lens : list Z) :
  exists s : state,
    fire lens (init_timer0 s0) = Some s /\
    fst (get_clock_ticks s) = Z.of_nat (length lens) mod 2 ^ 32 /\
    forall len : Z,
    exists s' : state,
      ISR_TIMER0_COMPA len s = Some s' /\
      clock_ticks s' = (clock_ticks s + 1) mod 2 ^ 32.
Proof.
  destruct (fire_selector_zero lens (init_timer0 s0)) as (s & Hrun & Hd & _ & _ & Ht).
  - reflexivity.
  - cbn. lia.
  - exists s. split; [exact Hrun | ]. split.
    + rewrite get_clock_ticks_eq. cbn [fst]. rewrite Ht. reflexivity.
    + intros len. eexists. split; [apply ISR_right; exact Hd | reflexivity].
Qed.

(** C9.  A call of [display_length] never changes the file-scope [digit]:
    the assignments in its body update the parameter of the same name (from
    0 to 1 on the right path).  So after [init_timer0] the selector is 0
    after any number of firings, and every firing writes the right-digit
    pattern. *)
Theorem display_length_leaves_global_digit (s0 : state) (lens : list Z) :
  (forall (v d : Z) (s s' : state),
      display_length v d s = Some s' -> digit s' = digit s) /\
  (forall (v : Z) (s : state),
      exists s' : state,
        display_length_body (to_uint8 v) 0 s = Some (1, s') /\
        digit s' = digit s) /\
  exists s : state,
    fire lens (init_timer0 s0) = Some s /\
    digit s = 0 /\
    forall len : Z,
    exists s' : state,
      ISR_TIMER0_COMPA len s = Some s' /\
      digit s' = 0 /\
      PORTA s' = canonical_pattern (to_uint8 len mod 10).
Proof.
  split; [ | split].
  - intros v d s s' Hcall. now apply display_length_frame in Hcall.
  - intros v s.
    pose proof (display_length_right v 0 s eq_refl) as Hcall.
    unfold display_length in Hcall.
    change (to_uint8 0) with 0 in Hcall.
    destruct (display_length_body (to_uint8 v) 0 s) as [[d s'] | ] eqn:Hbody;
      cbn [bind snd] in Hcall; [ | discriminate].
    injection Hcall as Hs'. exists s'. split.
    + unfold display_length_body in Hbody. cbn [Z.eqb] in Hbody.
      destruct (seven_seg_at (right_index (to_uint8 v))); cbn [bind] in Hbody;
        [ | discriminate].
      injection Hbody as Hd _. rewrite <- Hd. reflexivity.
    + rewrite Hs'. reflexivity.
  - destruct (fire_selector_zero lens (init_timer0 s0)) as (s & Hrun & Hd & _);
      [reflexivity | cbn; lia | ].
    exists s. split; [exact Hrun | ]. split; [exact Hd | ].
    intros len. eexists. split; [apply ISR_right; exact Hd | ].
    split; [exact Hd | reflexivity].
Qed.

Lemma display_length_leaves_global_digit_witness :
  display_length 37 1 (set_digit 1 power_on)
  = Some (set_PORTA 79 (set_digit 1 power_on)) /\
  digit (set_PORTA 79 (set_digit 1 power_on)) = digit (set_digit 1 power_on).
Proof.
  split; [vm_compute; reflexivity | ].
  apply (proj1 (display_length_leaves_global_digit power_on [])
           37 1 (set_digit 1 power_on)).
  vm_compute. reflexivity.
Defined.

(** C10.  [init_timer0] makes pin 0 of port C an output and leaves PORTC
    alone, and so does every other entry point: over any sequence of calls
    of [init_timer0], [get_clock_ticks], [display_length] and the interrupt
    handler the value of PORTC stays what it was; [display_length] changes
    PORTA and nothing else. *)
Theorem driver_never_writes_PORTC (cs : list call) (s s' : state) :
  run_calls cs s = Some s' ->
  PORTC s' = PORTC s /\
  DDRC (init_timer0 s) = 1 /\
  PORTC (init_timer0 s) = PORTC s /\
  (forall (v d : Z) (t t' : state),
      display_length v d t = Some t' -> t' = set_PORTA (PORTA t') t).
Proof.
  intros Hrun. split; [now apply run_calls_frame in Hrun | ].
  split; [reflexivity | split; [reflexivity | ]].
  intros v d t t'. apply display_length_writes_PORTA_only.
Qed.

Lemma driver_never_writes_PORTC_witness :
  run_calls [Call_init_timer0; Call_ISR 37; Call_get_clock_ticks;
             Call_ISR 137; Call_display_length 37 1] power_on
  = Some (set_PORTA 79 (set_clock_ticks 2 (init_timer0 power_on))) /\
  PORTC (set_PORTA 79 (set_clock_ticks 2 (init_timer0 power_on)))
  = PORTC power_on.
Proof.
  split; [vm_compute; reflexivity | ].
  apply (driver_never_writes_PORTC
           [Call_init_timer0; Call_ISR 37; Call_get_clock_ticks;
            Call_ISR 137; Call_display_length 37 1]
           power_on).
  vm_compute. reflexivity.
Defined.

(** C1.  What the code does where the claim expects alternation: after
    [init_timer0], two successive calls [display_length(v, digit)] with the
    same value both write the right-digit pattern [seven_seg[v % 10]] to
    PORTA, and the selector [digit] is 0 before, between and after them;
    no call moves it to the other state. *)
Theorem display_length_twice_repeats_right_digit (s0 : state) (v : Z) :
  exists s1 s2 : state,
    digit (init_timer0 s0) = 0 /\
    display_length v (digit (init_timer0 s0)) (init_timer0 s0) = Some s1 /\
    PORTA s1 = canonical_pattern (to_uint8 v mod 10) /\
    digit s1 = 0 /\
    display_length v (digit s1) s1 = Some s2 /\
    PORTA s2 = canonical_pattern (to_uint8 v mod 10) /\
    digit s2 = 0.
Proof.
  exists (set_PORTA (canonical_pattern (to_uint8 v mod 10)) (init_timer0 s0)).
  exists (set_PORTA (canonical_pattern (to_uint8 v mod 10))
            (set_PORTA (canonical_pattern (to_uint8 v mod 10)) (init_timer0 s0))).
  split; [reflexivity | ].
  split; [now apply display_length_right | ].
  split; [reflexivity | split; [reflexivity | ]].
  split; [now apply display_length_right | ].
  split; reflexivity.
Qed.

(** C4.  The code at value 37: from the initialized state the first call
    [display_length(37, digit)] writes 7, the table entry for digit 7; the
    second call writes 7 again, not 79, the entry for digit 3, because the
    selector is still 0.  Two firings of the handler that see length 37
    show the same.  (Handed the selector value 1 explicitly, the function
    does write 79.) *)
Theorem display_length_37_second_call_writes_7_again :
  exists s1 s2 : state,
    display_length 37 (digit (init_timer0 power_on)) (init_timer0 power_on)
    = Some s1 /\
    PORTA s1 = 7 /\ seven_seg_at 7 = Some 7 /\
    display_length 37 (digit s1) s1 = Some s2 /\
    PORTA s2 = 7 /\ seven_seg_at 3 = Some 79 /\ PORTA s2 <> 79 /\
    fire [37; 37] (init_timer0 power_on) = Some (set_clock_ticks 2 s2) /\
    display_length 37 1 s1 = Some (set_PORTA 79 s1).
Proof.
  exists (set_PORTA 7 (init_timer0 power_on)).
  exists (set_PORTA 7 (init_timer0 power_on)).
  repeat split; try (vm_compute; reflexivity).
  vm_compute. discriminate.
Qed.

(** C2, counterexample.  For the 8-bit value 100 the left-digit lookup uses
    index 10, which is not an index of the ten-entry table: the call is an
    access outside [seven_seg]. *)
Lemma left_lookup_outside_table_at_100 :
  0 <= 100 < 256 /\
  left_index (to_uint8 100) = 10 /\
  ~ (0 <= left_index (to_uint8 100) <= 9) /\
  seven_seg_at (left_index (to_uint8 100)) = None /\
  display_length 100 1 power_on = None.
Proof.
  split; [lia | ].
  split; [reflexivity | ].
  split; [change (left_index (to_uint8 100)) with 10; lia | ].
  split; reflexivity.
Qed.

(** C2, amended.  For every 8-bit value the right-digit lookup uses index
    value mod 10, inside 0..9, and the call completes; the left-digit lookup
    uses index value / 10, which is between 0 and 25 and is inside 0..9
    exactly when the value is at most 99, and the left-digit call stays
    inside the table exactly for those values. *)
Theorem display_length_lookup_indices (v : Z) :
  0 <= v < 256 ->
  right_index (to_uint8 v) = v mod 10 /\
  0 <= right_index (to_uint8 v) <= 9 /\
  (forall s : state, exists s' : state, display_length v 0 s = Some s') /\
  left_index (to_uint8 v) = v / 10 /\
  0 <= left_index (to_uint8 v) <= 25 /\
  (0 <= left_index (to_uint8 v) <= 9 <-> v <= 99) /\
  (forall (d : Z) (s : state),
      to_uint8 d <> 0 ->
      (exists s' : state, display_length v d s = Some s') <-> v <= 99).
Proof.
  intros Hv.
  rewrite (to_uint8_small v Hv).
  rewrite right_index_mod, left_index_div by lia.
  assert (Hr : 0 <= v mod 10 <= 9)
    by (pose proof (Z.mod_pos_bound v 10 eq_refl); lia).
  assert (Hl : 0 <= v / 10 <= 25).
  { split; [apply Z.div_pos; lia | ].
    apply Z.lt_succ_r, Z.div_lt_upper_bound; lia. }
  assert (Hl9 : 0 <= v / 10 <= 9 <-> v <= 99).
  { split.
    - intros [_ H9].
      destruct (Z_le_gt_dec v 99) as [Hle | Hgt]; [exact Hle | exfalso].
      assert (10 <= v / 10) by (apply Z.div_le_lower_bound; lia). lia.
    - intros H99. split; [apply Z.div_pos; lia | ].
      apply Z.lt_succ_r, Z.div_lt_upper_bound; lia. }
  split; [reflexivity | ].
  split; [exact Hr | ].
  split; [intros s; eexists; now apply display_length_right | ].
  split; [reflexivity | ].
  split; [exact Hl | ].
  split; [exact Hl9 | ].
  intros d s Hd. split.
  - intros [s' Hcall].
    destruct (Z_le_gt_dec v 99) as [Hle | Hgt]; [exact Hle | exfalso].
    rewrite display_length_left_outside in Hcall;
      [discriminate | assumption | rewrite to_uint8_small; lia].
  - intros H99. eexists.
    apply display_length_left; [assumption | rewrite to_uint8_small; lia].
Qed.

Lemma display_length_lookup_indices_witness :
  0 <= 137 < 256 /\
  left_index (to_uint8 137) = 137 / 10 /\
  (0 <= left_index (to_uint8 137) <= 9 <-> 137 <= 99).
Proof.
  split; [lia | ].
  pose proof (display_length_lookup_indices 137 ltac:(lia)) as H.
  split; [apply H | apply H].
Defined.

(** * Further properties of the driver *)

Section MoreFacts.

Lemma init_timer0_TIMSK0 (s : state) :
  TIMSK0 (init_timer0 s) = to_uint8 (Z.lor (TIMSK0 s) (Z.shiftl 1 Avr.OCIE0A)).
Proof. reflexivity. Qed.

Lemma init_timer0_TIFR0 (s : state) :
  TIFR0 (init_timer0 s) = to_uint8 (Z.land (TIFR0 s) (Z.shiftl 1 Avr.OCF0A)).
Proof. reflexivity. Qed.

Lemma shiftl_1_testbit (k n : Z) :
  0 <= k -> Z.testbit (Z.shiftl 1 k) n = (n =? k).
Proof.
  intros Hk. rewrite Z.shiftl_1_l, Z.pow2_bits_eqb by exact Hk.
  apply Z.eqb_sym.
Qed.

Lemma init_timer0_enables_compare_interrupt (s : state) :
  Z.testbit (TIMSK0 (init_timer0 s)) Avr.OCIE0A = true.
Proof.
  rewrite init_timer0_TIMSK0, to_uint8_testbit, Z.lor_spec.
  rewrite shiftl_1_testbit by (unfold Avr.OCIE0A; lia).
  rewrite Z.eqb_refl. now rewrite orb_true_r.
Qed.

Lemma seven_seg_at_pattern_range (i p : Z) :
  seven_seg_at i = Some p -> 0 < p < 128.
Proof.
  intros Hp.
  assert (Hi : 0 <= i <= 9) by (apply seven_seg_at_defined; eauto).
  assert (Hc : i = 0 \/ i = 1 \/ i = 2 \/ i = 3 \/ i = 4 \/
               i = 5 \/ i = 6 \/ i = 7 \/ i = 8 \/ i = 9) by lia.
  repeat (destruct Hc as [-> | Hc]; [injection Hp as <-; lia | ]).
  subst i. injection Hp as <-. lia.
Qed.

Lemma canonical_pattern_injective (i j : Z) :
  0 <= i <= 9 -> 0 <= j <= 9 ->
  canonical_pattern i = canonical_pattern j -> i = j.
Proof.
  intros Hi Hj.
  assert (Hci : i = 0 \/ i = 1 \/ i = 2 \/ i = 3 \/ i = 4 \/
                i = 5 \/ i = 6 \/ i = 7 \/ i = 8 \/ i = 9) by lia.
  assert (Hcj : j = 0 \/ j = 1 \/ j = 2 \/ j = 3 \/ j = 4 \/
                j = 5 \/ j = 6 \/ j = 7 \/ j = 8 \/ j = 9) by lia.
  clear Hi Hj.
  repeat (destruct Hci as [-> | Hci]);
    try subst i;
    repeat (destruct Hcj as [-> | Hcj]);
    try subst j;
    cbn [canonical_pattern]; intros Heq;
    solve [reflexivity | discriminate Heq].
Qed.

Lemma fire_ticks (lens : list Z) :
  forall s s' : state,
    fire lens s = Some s' ->
    to_uint32 (clock_ticks s')
    = to_uint32 (clock_ticks s + Z.of_nat (length lens)).
Proof.
  induction lens as [ | len rest IH]; intros s s'; cbn [fire].
  - intros [= <-]. cbn [length Z.of_nat]. now rewrite Z.add_0_r.
  - destruct (ISR_TIMER0_COMPA len s) as [s1 | ] eqn:Hisr; cbn [bind];
      [ | discriminate].
    intros Hrest. apply IH in Hrest. apply ISR_frame in Hisr.
    destruct Hisr as (_ & _ & _ & Hticks).
    rewrite Hrest, Hticks, to_uint32_succ. f_equal. cbn [length]. lia.
Qed.

Lemma run_calls_app (cs1 cs2 : list call) :
  forall s : state,
    run_calls (cs1 ++ cs2) s = (s' <- run_calls cs1 s ;; run_calls cs2 s').
Proof.
  induction cs1 as [ | c rest IH]; intros s; cbn [app run_calls bind].
  - reflexivity.
  - destruct (run_call c s) as [s1 | ]; cbn [bind]; [apply IH | reflexivity].
Qed.

Lemma configured_init_timer0 (s : state) : configured (init_timer0 s).
Proof.
  unfold configured.
  split; [reflexivity | ]. split; [reflexivity | ]. split; [reflexivity | ].
  split; [apply init_timer0_enables_compare_interrupt | ].
  split; [reflexivity | ]. split; [reflexivity | ]. split; [reflexivity | ].
  cbn. lia.
Qed.

Lemma configured_set_PORTA (p : Z) (s : state) :
  configured s -> configured (set_PORTA p s).
Proof. intros H. exact H. Qed.

Lemma configured_run_call (c : call) (s s' : state) :
  configured s -> run_call c s = Some s' -> configured s'.
Proof.
  intros Hs. destruct c as [ | | v d | len]; cbn [run_call].
  - intros [= <-]. apply configured_init_timer0.
  - rewrite get_clock_ticks_eq. now intros [= <-].
  - intros Hcall. apply display_length_writes_PORTA_only in Hcall.
    rewrite Hcall. now apply configured_set_PORTA.
  - unfold ISR_TIMER0_COMPA. intros Hcall.
    apply display_length_writes_PORTA_only in Hcall.
    rewrite Hcall. apply configured_set_PORTA.
    destruct Hs as (H1 & H2 & H3 & H4 & H5 & H6 & H7 & H8).
    unfold configured. cbn [OCR0A TCCR0A TCCR0B TIMSK0 DDRA DDRC digit
                              clock_ticks set_clock_ticks].
    repeat (split; [assumption | ]).
    apply to_uint32_range.
Qed.

Lemma configured_run_calls (cs : list call) :
  forall s s' : state,
    configured s -> run_calls cs s = Some s' -> configured s'.
Proof.
  induction cs as [ | c rest IH]; intros s s' Hs; cbn [run_calls].
  - now intros [= <-].
  - destruct (run_call c s) as [s1 | ] eqn:Hc; cbn [bind]; [ | discriminate].
    apply IH. now apply (configured_run_call c s).
Qed.

End MoreFacts.

(** X1.  [TIMSK0 |= (1<<OCIE0A)] in [init_timer0]: bit OCIE0A of the
    interrupt mask ends up set, and each of the other seven bits keeps the
    value it had; nothing above bit 7 is stored. *)
Theorem init_timer0_TIMSK0_bits (s : state) (n : Z) :
  Z.testbit (TIMSK0 (init_timer0 s)) n
  = (n <? 8) && ((n =? Avr.OCIE0A) || Z.testbit (TIMSK0 s) n).
Proof.
  rewrite init_timer0_TIMSK0, to_uint8_testbit, Z.lor_spec.
  rewrite shiftl_1_testbit by (unfold Avr.OCIE0A; lia).
  now rewrite orb_comm.
Qed.

(** X2.  [TIFR0 &= (1<<OCF0A)] in [init_timer0]: the value stored in the
    flag register has bit OCF0A as it was read and every other bit zero, so
    it is 0 or 2: no flag other than OCF0A is ever written with a one. *)
Theorem init_timer0_TIFR0_bits (s : state) (n : Z) :
  Z.testbit (TIFR0 (init_timer0 s)) n
  = (n =? Avr.OCF0A) && Z.testbit (TIFR0 s) n /\
  (TIFR0 (init_timer0 s) = 0 \/ TIFR0 (init_timer0 s) = 2).
Proof.
  assert (Hbits : forall m : Z,
             Z.testbit (TIFR0 (init_timer0 s)) m
             = (m =? Avr.OCF0A) && Z.testbit (TIFR0 s) m).
  { intros m. rewrite init_timer0_TIFR0, to_uint8_testbit, Z.land_spec.
    rewrite shiftl_1_testbit by (unfold Avr.OCF0A; lia).
    destruct (Z.eqb_spec m Avr.OCF0A) as [-> | Hne].
    - cbn. now rewrite andb_true_r.
    - now rewrite andb_false_r, andb_false_r. }
  split; [apply Hbits | ].
  destruct (Z.testbit (TIFR0 s) Avr.OCF0A) eqn:Hflag; [right | left];
    apply Z.bits_inj'; intros m _; rewrite Hbits.
  - destruct (Z.eqb_spec m Avr.OCF0A) as [-> | Hne].
    + now rewrite Hflag.
    + cbn [andb]. symmetry.
      change 2 with (2 ^ 1). rewrite Z.pow2_bits_eqb by lia.
      apply Z.eqb_neq. unfold Avr.OCF0A in Hne. lia.
  - rewrite Z.bits_0.
    destruct (Z.eqb_spec m Avr.OCF0A) as [-> | Hne]; [now rewrite Hflag | reflexivity].
Qed.

(** X3.  [init_timer0] does not set the global interrupt flag: called with
    the flag clear, it leaves a state in which a compare-match request is
    not served; once [sei()] has run, the first request is served, the
    counter becomes 1 and the units digit of the snake length is on
    PORTA. *)
Theorem init_timer0_needs_sei (len : Z) (s : state) :
  interrupts_enabled s = false ->
  interrupts_enabled (init_timer0 s) = false /\
  Preempt.deliver (Some len) (init_timer0 s) = Some (init_timer0 s) /\
  exists s' : state,
    Preempt.deliver (Some len) (sei (init_timer0 s)) = Some s' /\
    clock_ticks s' = 1 /\
    PORTA s' = canonical_pattern (to_uint8 len mod 10).
Proof.
  intros Hoff.
  assert (Hinit : interrupts_enabled (init_timer0 s) = false) by exact Hoff.
  split; [exact Hinit | split].
  - cbn [Preempt.deliver]. now rewrite Hinit.
  - cbn [Preempt.deliver]. rewrite sei_unmasks.
    rewrite ISR_right by reflexivity.
    eexists. split; [reflexivity | split; reflexivity].
Qed.

Lemma init_timer0_needs_sei_witness :
  interrupts_enabled power_on = false /\
  Preempt.deliver (Some 37) (init_timer0 power_on) = Some (init_timer0 power_on).
Proof.
  split; [reflexivity | ].
  apply (init_timer0_needs_sei 37 power_on).
  reflexivity.
Defined.

(** X4.  Elapsed time by unsigned subtraction: if the handler fires N times
    between two calls of [get_clock_ticks], the 32-bit difference of the
    two returned values is N mod 2^32, also when the counter has wrapped in
    between; it is N itself when N is below 2^32. *)
Theorem elapsed_ticks_by_subtraction (lens : list Z) (s s' : state) :
  fire lens s = Some s' ->
  to_uint32 (fst (get_clock_ticks s') - fst (get_clock_ticks s))
  = to_uint32 (Z.of_nat (length lens)) /\
  (Z.of_nat (length lens) < 2 ^ 32 ->
   to_uint32 (fst (get_clock_ticks s') - fst (get_clock_ticks s))
   = Z.of_nat (length lens)).
Proof.
  intros Hrun. apply fire_ticks in Hrun.
  rewrite !get_clock_ticks_eq. cbn [fst].
  assert (Hdiff : to_uint32 (clock_ticks s' - clock_ticks s)
                  = to_uint32 (Z.of_nat (length lens))).
  { unfold to_uint32 in *.
    rewrite <- Zminus_mod_idemp_l, Hrun, Zminus_mod_idemp_l.
    f_equal. lia. }
  split; [exact Hdiff | ].
  intros Hsmall. rewrite Hdiff. unfold to_uint32. apply Z.mod_small. lia.
Qed.

Lemma elapsed_ticks_by_subtraction_witness :
  fire [5; 6; 7] (set_clock_ticks 4294967294 (init_timer0 power_on))
  = Some (set_PORTA 7 (set_clock_ticks 1 (init_timer0 power_on))) /\
  to_uint32 (fst (get_clock_ticks
                    (set_PORTA 7 (set_clock_ticks 1 (init_timer0 power_on))))
             - fst (get_clock_ticks
                      (set_clock_ticks 4294967294 (init_timer0 power_on))))
  = to_uint32 (Z.of_nat (length [5; 6; 7])).
Proof.
  split; [vm_compute; reflexivity | ].
  refine (proj1 (elapsed_ticks_by_subtraction [5; 6; 7]
                   (set_clock_ticks 4294967294 (init_timer0 power_on)) _ _)).
  vm_compute. reflexivity.
Defined.

(** X5.  For a value of at most 99 the two patterns [display_length] writes
    are those of its units digit (selector 0) and of its tens digit
    (selector 1), the two digits recompose the value, and two such values
    that produce the same pair of patterns are equal: the table has no
    pattern twice. *)
Theorem display_length_patterns_determine_value (v w : Z) (s : state) :
  0 <= v <= 99 -> 0 <= w <= 99 ->
  display_length v 0 s = Some (set_PORTA (canonical_pattern (v mod 10)) s) /\
  display_length v 1 s = Some (set_PORTA (canonical_pattern (v / 10)) s) /\
  10 * left_index v + right_index v = v /\
  (display_length v 0 s = display_length w 0 s ->
   display_length v 1 s = display_length w 1 s ->
   v = w).
Proof.
  intros Hv Hw.
  assert (Hright : forall x : Z, 0 <= x <= 99 ->
             display_length x 0 s
             = Some (set_PORTA (canonical_pattern (x mod 10)) s)).
  { intros x Hx. rewrite display_length_right by reflexivity.
    rewrite to_uint8_small by lia. reflexivity. }
  assert (Hleft : forall x : Z, 0 <= x <= 99 ->
             display_length x 1 s
             = Some (set_PORTA (canonical_pattern (x / 10)) s)).
  { intros x Hx. rewrite display_length_left.
    - rewrite to_uint8_small by lia. reflexivity.
    - discriminate.
    - rewrite to_uint8_small by lia. lia. }
  split; [now apply Hright | ].
  split; [now apply Hleft | ].
  split.
  - rewrite left_index_div, right_index_mod by lia.
    symmetry. apply Z.div_mod. lia.
  - rewrite !Hright, !Hleft by assumption.
    intros Hunits Htens.
    injection Hunits as Hunits. injection Htens as Htens.
    assert (Hdigits : forall x : Z, 0 <= x <= 99 ->
               0 <= x mod 10 <= 9 /\ 0 <= x / 10 <= 9).
    { intros x Hx. split.
      - pose proof (Z.mod_pos_bound x 10 eq_refl). lia.
      - split; [apply Z.div_pos; lia | ].
        apply Z.lt_succ_r, Z.div_lt_upper_bound; lia. }
    apply canonical_pattern_injective in Hunits; try apply Hdigits; try assumption.
    apply canonical_pattern_injective in Htens; try apply Hdigits; try assumption.
    rewrite (Z.div_mod v 10), (Z.div_mod w 10) by lia.
    now rewrite Hunits, Htens.
Qed.

Lemma display_length_patterns_determine_value_witness :
  (0 <= 37 <= 99) /\
  display_length 37 0 power_on
  = Some (set_PORTA (canonical_pattern (37 mod 10)) power_on) /\
  display_length 37 1 power_on
  = Some (set_PORTA (canonical_pattern (37 / 10)) power_on).
Proof.
  split; [lia | ].
  pose proof (display_length_patterns_determine_value 37 37 power_on
                ltac:(lia) ltac:(lia)) as H.
  split; apply H.
Defined.

(** X6.  Whatever the arguments, a call of [display_length] that stays
    inside the table leaves in PORTA a value between 1 and 127: bit 7 of
    the port is never driven high and the display is never blank. *)
Theorem display_length_pattern_is_seven_bits (v d : Z) (s s' : state) :
  display_length v d s = Some s' ->
  0 < PORTA s' < 128 /\ Z.testbit (PORTA s') 7 = false.
Proof.
  intros Hcall.
  assert (Hrange : 0 < PORTA s' < 128).
  { unfold display_length, display_length_body in Hcall.
    destruct (to_uint8 d =? 0).
    - destruct (seven_seg_at (right_index (to_uint8 v))) as [p | ] eqn:Hp;
        cbn in Hcall; [ | discriminate].
      injection Hcall as <-. cbn [PORTA set_PORTA].
      now apply seven_seg_at_pattern_range in Hp.
    - destruct (seven_seg_at (left_index (to_uint8 v))) as [p | ] eqn:Hp;
        cbn in Hcall; [ | discriminate].
      injection Hcall as <-. cbn [PORTA set_PORTA].
      now apply seven_seg_at_pattern_range in Hp. }
  split; [exact Hrange | ].
  rewrite <- (Z.mod_small (PORTA s') (2 ^ 7)) by (change (2 ^ 7) with 128; lia).
  apply Z.mod_pow2_bits_high. lia.
Qed.

Lemma display_length_pattern_is_seven_bits_witness :
  display_length 80 1 power_on = Some (set_PORTA 127 power_on) /\
  0 < PORTA (set_PORTA 127 power_on) < 128.
Proof.
  split; [vm_compute; reflexivity | ].
  refine (proj1 (display_length_pattern_is_seven_bits 80 1 power_on _ _)).
  vm_compute. reflexivity.
Defined.

(** X7.  The selector argument is only tested against zero, after its
    conversion to eight bits: every selector that is not a multiple of 256
    gives what selector 1 gives, a multiple of 256 gives what selector 0
    gives, and both arguments count modulo 256 only. *)
Theorem display_length_selector_nonzero_is_left (v d : Z) (s : state) :
  display_length v d s = display_length (to_uint8 v) (to_uint8 d) s /\
  (to_uint8 d <> 0 -> display_length v d s = display_length v 1 s) /\
  (to_uint8 d = 0 -> display_length v d s = display_length v 0 s).
Proof.
  split; [ | split].
  - unfold display_length. now rewrite !to_uint8_idem.
  - intros Hd. unfold display_length, display_length_body.
    apply Z.eqb_neq in Hd. rewrite Hd.
    change (to_uint8 1 =? 0) with false. cbv beta iota.
    destruct (seven_seg_at (left_index (to_uint8 v))); reflexivity.
  - intros Hd. unfold display_length. now rewrite Hd.
Qed.

Lemma display_length_selector_nonzero_is_left_witness :
  to_uint8 2 <> 0 /\
  display_length 37 2 power_on = display_length 37 1 power_on.
Proof.
  split; [discriminate | ].
  apply (display_length_selector_nonzero_is_left 37 2 power_on).
  discriminate.
Defined.

(** X8.  One firing of the handler keeps the counter within 32 bits: it
    adds one, except at 4294967295, where the counter goes back to 0. *)
Theorem ISR_counter_step (len : Z) (s s' : state) :
  0 <= clock_ticks s < 2 ^ 32 ->
  ISR_TIMER0_COMPA len s = Some s' ->
  0 <= clock_ticks s' < 2 ^ 32 /\
  (clock_ticks s < 2 ^ 32 - 1 -> clock_ticks s' = clock_ticks s + 1) /\
  (clock_ticks s = 2 ^ 32 - 1 -> clock_ticks s' = 0).
Proof.
  intros Hrange Hisr. apply ISR_frame in Hisr.
  destruct Hisr as (_ & _ & _ & Hticks). rewrite Hticks.
  split; [apply to_uint32_range | split].
  - intros Hbelow. unfold to_uint32. apply Z.mod_small. lia.
  - intros Htop. rewrite Htop. reflexivity.
Qed.

Lemma ISR_counter_step_witness :
  ISR_TIMER0_COMPA 5 (set_clock_ticks 4294967295 power_on)
  = Some (set_PORTA 109 (set_clock_ticks 0 power_on)) /\
  clock_ticks (set_PORTA 109 (set_clock_ticks 0 power_on)) = 0.
Proof.
  split; [vm_compute; reflexivity | ].
  refine (proj2 (proj2 (ISR_counter_step 5
                          (set_clock_ticks 4294967295 power_on) _ _ _)) _).
  - vm_compute. split; [discriminate | reflexivity].
  - vm_compute. reflexivity.
  - reflexivity.
Defined.

(** X9.  The handler stays inside the pattern table exactly when the
    selector is zero or the snake length it sees, taken modulo 256, is at
    most 99; otherwise its left-digit lookup is outside the table. *)
Theorem ISR_defined_iff (len : Z) (s : state) :
  (exists s' : state, ISR_TIMER0_COMPA len s = Some s')
  <-> (to_uint8 (digit s) = 0 \/ to_uint8 len <= 99).
Proof.
  unfold ISR_TIMER0_COMPA. cbn [digit set_clock_ticks].
  destruct (Z.eq_dec (to_uint8 (digit s)) 0) as [Hzero | Hnonzero].
  - split; [now left | intros _].
    eexists. now apply display_length_right.
  - destruct (Z_le_gt_dec (to_uint8 len) 99) as [Hle | Hgt].
    + split; [now right | intros _].
      eexists. now apply display_length_left.
    + split.
      * intros [s' Hcall].
        rewrite display_length_left_outside in Hcall by (assumption || lia).
        discriminate.
      * intros [Hzero | Hle]; [contradiction | lia].
Qed.

(** X10.  Called with the global interrupt flag clear, [get_clock_ticks]
    serves no request at all, whatever the schedule: it returns the
    counter of the state it was called in and that very state, flag still
    clear. *)
Theorem get_clock_ticks_with_interrupts_off (i0 i1 i2 i3 : option Z) (s : state) :
  interrupts_enabled s = false ->
  Preempt.run [i0; i1; i2; i3] Preempt.entry s
  = Some (Preempt.mkFrame Preempt.AtReturn 0 (clock_ticks s), s).
Proof.
  intros Hoff.
  assert (Hdrop : forall irq : option Z, Preempt.deliver irq s = Some s).
  { intros [len | ]; cbn [Preempt.deliver]; [now rewrite Hoff | reflexivity]. }
  rewrite PreemptFacts.run_get_clock_ticks, !Hdrop. cbn [bind].
  rewrite Hdrop. cbn [bind].
  pose proof (saved_flag_zero s) as Hsaved. rewrite Hoff in Hsaved.
  apply Z.eqb_eq in Hsaved. now rewrite Hsaved.
Qed.

Lemma get_clock_ticks_with_interrupts_off_witness :
  interrupts_enabled (init_timer0 power_on) = false /\
  Preempt.run [Some 200; Some 5; None; Some 7] Preempt.entry (init_timer0 power_on)
  = Some (Preempt.mkFrame Preempt.AtReturn 0 0, init_timer0 power_on).
Proof.
  split; [reflexivity | ].
  apply (get_clock_ticks_with_interrupts_off
           (Some 200) (Some 5) None (Some 7) (init_timer0 power_on)).
  reflexivity.
Defined.



(** X12.  A call of [get_clock_ticks] anywhere in a sequence of calls into
    the driver changes nothing for the calls around it: the sequence with
    the call and the sequence without it end in the same state, or are both
    undefined. *)
Theorem get_clock_ticks_is_transparent (cs1 cs2 : list call) (s : state) :
  run_calls (cs1 ++ Call_get_clock_ticks :: cs2) s = run_calls (cs1 ++ cs2) s.
Proof.
  rewrite !run_calls_app.
  destruct (run_calls cs1 s) as [s1 | ]; cbn [bind]; [ | reflexivity].
  cbn [run_calls run_call]. now rewrite get_clock_ticks_eq.
Qed.

(** X13.  What [init_timer0] has set up survives every later call into the
    driver: after any sequence of calls of [init_timer0], [get_clock_ticks],
    [display_length] and the handler, the compare value is 124, the timer
    is in CTC mode with the clock divided by 64, the compare interrupt is
    enabled, the direction registers are as set, the selector is 0 and the
    counter is within 32 bits. *)
Theorem configuration_survives_calls (cs : list call) (s s' : state) :
  run_calls cs (init_timer0 s) = Some s' ->
  configured s' /\
  OCR0A s' = 124 /\
  Avr.clock_select_divider (TCCR0B s') = 64 /\
  digit s' = 0.
Proof.
  intros Hrun.
  assert (Hconf : configured s')
    by (apply (configured_run_calls cs (init_timer0 s));
        [apply configured_init_timer0 | exact Hrun]).
  split; [exact Hconf | ].
  destruct Hconf as (H1 & _ & H3 & _ & _ & _ & H7 & _).
  split; [exact H1 | split; [now rewrite H3 | exact H7]].
Qed.

Lemma configuration_survives_calls_witness :
  run_calls [Call_ISR 37; Call_display_length 42 1; Call_get_clock_ticks;
             Call_ISR 250] (init_timer0 power_on)
  = Some (set_PORTA 63 (set_clock_ticks 2 (init_timer0 power_on))) /\
  configured (set_PORTA 63 (set_clock_ticks 2 (init_timer0 power_on))).
Proof.
  split; [vm_compute; reflexivity | ].
  refine (proj1 (configuration_survives_calls
                   [Call_ISR 37; Call_display_length 42 1; Call_get_clock_ticks;
                    Call_ISR 250] power_on _ _)).
  vm_compute. reflexivity.
Defined.
